(** * The pipeline driver [main.py]: stage selection and forwarded parameters

    [go] reads a Hydra configuration, decides which pipeline stages are
    active, and calls [mlflow.run] once for every active stage, in the
    order in which the [if] blocks are written.  The development below
    embeds the function as a computation that records, in order, every
    effect the script performs (environment assignments, the temporary
    directory, the file written for the training stage, the external
    runs) together with the way the function is left. *)

From Stdlib Require Import String Ascii List Bool ZArith Lia Permutation Sorted.
Import ListNotations.
Open Scope string_scope.

(** ** Python strings and lists *)

Module Py.

(** [s.split(sep)] for a one-character separator: every occurrence of the
    separator cuts, so [n] occurrences give [n + 1] pieces and the empty
    string gives one empty piece. *)
Fixpoint split (sep : ascii) (s : string) : list string :=
  match s with
  | EmptyString => [EmptyString]
  | String c rest =>
      if Ascii.eqb c sep then EmptyString :: split sep rest
      else match split sep rest with
           | [] => [String c EmptyString]
           | piece :: pieces => String c piece :: pieces
           end
  end.

(** [x in l] on a list of strings: some element compares equal to [x]. *)
Definition contains (x : string) (l : list string) : bool :=
  existsb (String.eqb x) l.

(** [sep.join(l)]. *)
Fixpoint join (sep : string) (l : list string) : string :=
  match l with
  | [] => ""
  | [x] => x
  | x :: rest => x ++ sep ++ join sep rest
  end.

Definition startswith (p s : string) : bool := String.prefix p s.

Fixpoint endswith_char (c : ascii) (s : string) : bool :=
  match s with
  | EmptyString => false
  | String d EmptyString => Ascii.eqb d c
  | String _ rest => endswith_char c rest
  end.

End Py.

(** ** [os.path] on POSIX *)

Module Path.

Definition isabs (p : string) : bool := Py.startswith "/" p.

(** One round of the loop of [os.path.join]. *)
Definition join2 (path b : string) : string :=
  if Py.startswith "/" b then b
  else if (path =? "") || Py.endswith_char "/" path then path ++ b
  else path ++ "/" ++ b.

Definition join (a : string) (p : list string) : string :=
  fold_left join2 p a.

(** The loop of [os.path.normpath]; [new_comps] is kept with its last
    element first. *)
Fixpoint normpath_loop (initial_slashes : nat) (comps new_comps : list string)
  : list string :=
  match comps with
  | [] => rev new_comps
  | comp :: rest =>
      if (comp =? "") || (comp =? ".") then
        normpath_loop initial_slashes rest new_comps
      else if negb (comp =? "..")
              || (Nat.eqb initial_slashes 0
                  && match new_comps with [] => true | _ => false end)
              || match new_comps with
                 | last :: _ => last =? ".."
                 | [] => false
                 end
      then normpath_loop initial_slashes rest (comp :: new_comps)
      else normpath_loop initial_slashes rest (tl new_comps)
  end.

Definition normpath (path : string) : string :=
  if path =? "" then "."
  else
    let initial_slashes :=
      if Py.startswith "/" path then
        if Py.startswith "//" path && negb (Py.startswith "///" path)
        then 2 else 1
      else 0 in
    let comps := normpath_loop initial_slashes (Py.split "/" path) [] in
    let joined := Py.join "/" comps in
    let res :=
      match initial_slashes with
      | 0 => joined
      | 1 => "/" ++ joined
      | _ => "//" ++ joined
      end in
    if res =? "" then "." else res.

(** [os.path.abspath], with the working directory made explicit. *)
Definition abspath (cwd path : string) : string :=
  normpath (if isabs path then path else join cwd [path]).

End Path.

(** ** Configuration

    Leaves of the configuration that are handed on untouched. *)
Inductive scalar : Type :=
  | SNone
  | SBool (b : bool)
  | SInt (z : Z)
  | SFloat (lexeme : string)
  | SStr (s : string).

(** A Python [dict] with string keys, in insertion order. *)
Definition dict : Type := list (string * scalar).

Definition keys (d : dict) : list string := map fst d.

Fixpoint get (k : string) (d : dict) : option scalar :=
  match d with
  | [] => None
  | (k', v) :: rest => if k =? k' then Some v else get k rest
  end.

Definition without (k : string) (d : dict) : dict :=
  filter (fun kv => negb (k =? fst kv)) d.

Module MainCfg.
Record t : Type := {
  project_name : string;
  experiment_name : string;
  steps : string;
  components_repository : string;
  latest_tag : string;
  reference_tag : string;
  prod_tag : string
}.
End MainCfg.

Module EtlCfg.
Record t : Type := {
  sample : scalar;
  min_price : scalar;
  max_price : scalar
}.
End EtlCfg.

Module BasicCleaningCfg.
Record t : Type := {
  input_artifact : string;
  output_artifact : string
}.
End BasicCleaningCfg.

Module DataCheckCfg.
Record t : Type := {
  kl_threshold : scalar
}.
End DataCheckCfg.

Module ModelingCfg.
Record t : Type := {
  test_size : scalar;
  val_size : scalar;
  random_seed : scalar;
  stratify_by : scalar;
  max_tfidf_features : scalar;
  random_forest : dict;
  trainval_artifact : string;
  test_artifact : string;
  output_artifact : string
}.
End ModelingCfg.

Record DictConfig : Type := {
  main : MainCfg.t;
  etl : EtlCfg.t;
  basic_cleaning : BasicCleaningCfg.t;
  data_check : DataCheckCfg.t;
  modeling : ModelingCfg.t
}.

(** [config] with [main.steps] replaced and everything else kept. *)
Definition with_steps (config : DictConfig) (s : string) : DictConfig :=
  {| main := {| MainCfg.project_name := MainCfg.project_name (main config);
                MainCfg.experiment_name := MainCfg.experiment_name (main config);
                MainCfg.steps := s;
                MainCfg.components_repository :=
                  MainCfg.components_repository (main config);
                MainCfg.latest_tag := MainCfg.latest_tag (main config);
                MainCfg.reference_tag := MainCfg.reference_tag (main config);
                MainCfg.prod_tag := MainCfg.prod_tag (main config) |};
     etl := etl config;
     basic_cleaning := basic_cleaning config;
     data_check := data_check config;
     modeling := modeling config |}.

(** ** Stages, effects and the outside world *)

(** The six [if] blocks of [go], in the order they are written. *)
Inductive stage : Type :=
  | Download
  | BasicCleaning
  | DataCheck
  | DataSplit
  | TrainRandomForest
  | TestRegressionModel.

Definition stage_name (st : stage) : string :=
  match st with
  | Download => "download"
  | BasicCleaning => "basic_cleaning"
  | DataCheck => "data_check"
  | DataSplit => "data_split"
  | TrainRandomForest => "train_random_forest"
  | TestRegressionModel => "test_regression_model"
  end.

Definition program_order : list stage :=
  [Download; BasicCleaning; DataCheck; DataSplit; TrainRandomForest;
   TestRegressionModel].

Definition stage_index (st : stage) : nat :=
  match st with
  | Download => 0
  | BasicCleaning => 1
  | DataCheck => 2
  | DataSplit => 3
  | TrainRandomForest => 4
  | TestRegressionModel => 5
  end.

Definition stage_eqb (a b : stage) : bool :=
  Nat.eqb (stage_index a) (stage_index b).

Definition stage_eq_dec (a b : stage) : {a = b} + {a <> b}.
Proof. decide equality. Defined.

Inductive exn : Type :=
  | MlflowException (message : string)
  | ValueError (message : string)
  | OSError (message : string).

(** What the script does to the world, one constructor per kind of call.
    [FileOpen] is a file created or emptied by [open(file, "w+")] and
    [JsonDump] a completed [json.dump] into it.  In [MlflowRun] the stage
    names the [if] block that issues the call; the other arguments are
    those of [mlflow.run]. *)
Inductive event : Type :=
  | EnvironSet (name value : string)
  | TmpDirCreate (dir : string)
  | TmpDirCleanup (dir : string)
  | FileOpen (file : string)
  | JsonDump (file : string) (object : dict)
  | MlflowRun (st : stage) (uri entry_point : string)
              (version : option string) (parameters : dict).

(** What [go] cannot decide: the working directories and the name of the
    temporary directory, whether opening a file for writing raises,
    whether writing an object into the open file raises, and whether a
    given external run raises. *)
Record world : Type := {
  getcwd : string;
  get_original_cwd : string;
  mkdtemp : string;
  open_raises : string -> option exn;
  dump_raises : string -> dict -> option exn;
  run_raises : string -> string -> option string -> dict -> option exn
}.

(** ** Computations: a log of events and a way of leaving *)

Inductive result (A : Type) : Type :=
  | Returned (a : A)
  | Raised (e : exn).
Arguments Returned {A} a.
Arguments Raised {A} e.

Definition M (A : Type) : Type := (list event * result A)%type.

Definition ret {A} (a : A) : M A := ([], Returned a).

Definition bind {A B} (m : M A) (f : A -> M B) : M B :=
  match m with
  | (l, Returned a) => let (l', r) := f a in ((l ++ l')%list, r)
  | (l, Raised e) => (l, Raised e)
  end.

Definition emit (ev : event) : M unit := ([ev], Returned tt).

Notation "x <- m ;; k" := (bind m (fun x => k))
  (at level 61, m at next level, right associativity).
Notation "m ;; k" := (bind m (fun _ => k))
  (at level 61, right associativity).

(** [if c: body] with nothing after it in the branch. *)
Definition when (c : bool) (body : M unit) : M unit :=
  if c then body else ret tt.

Definition raise {A} (e : exn) : M A := ([], Raised e).

(** Whether a string holds the character of code 0. *)
Fixpoint has_nul (s : string) : bool :=
  match s with
  | EmptyString => false
  | String c rest => Ascii.eqb c zero || has_nul rest
  end.

Fixpoint has_char (c : ascii) (s : string) : bool :=
  match s with
  | EmptyString => false
  | String d rest => Ascii.eqb d c || has_char c rest
  end.

(** [os.environ[name] = value]: the name and the value are encoded and
    handed to [putenv], which refuses a null byte in either, an empty
    name and a name with "=" in it. *)
Definition environ_set (name value : string) : M unit :=
  if has_nul name || has_nul value then
    raise (ValueError "embedded null byte")
  else if (name =? "") || has_char "=" name then
    raise (ValueError "illegal environment variable name")
  else emit (EnvironSet name value).

(** [with tempfile.TemporaryDirectory() as tmp_dir: body]: the directory
    is removed however the body is left, and an exception goes on. *)
Definition with_TemporaryDirectory {A} (w : world) (body : string -> M A)
  : M A :=
  let tmp_dir := mkdtemp w in
  let (l, r) := body tmp_dir in
  ((TmpDirCreate tmp_dir :: l ++ [TmpDirCleanup tmp_dir])%list, r).

(** [with open(file, "w+") as fp: json.dump(object, fp)]: when [open]
    raises nothing is touched; when the writing raises the file is there
    but the object is not in it. *)
Definition json_dump_to (w : world) (file : string) (object : dict)
  : M unit :=
  match open_raises w file with
  | Some e => raise e
  | None =>
      match dump_raises w file object with
      | Some e => ([FileOpen file], Raised e)
      | None => ([FileOpen file; JsonDump file object], Returned tt)
      end
  end.

(** [mlflow.run(uri, entry_point, version=..., parameters=...)]: the call
    blocks until the run is over and raises when the run fails. *)
Definition mlflow_run (w : world) (st : stage) (uri entry_point : string)
  (version : option string) (parameters : dict) : M unit :=
  match run_raises w uri entry_point version parameters with
  | None => emit (MlflowRun st uri entry_point version parameters)
  | Some e => ([MlflowRun st uri entry_point version parameters], Raised e)
  end.

(** ** The script *)

Definition _steps : list string :=
  ["download"; "basic_cleaning"; "data_check"; "data_split";
   "train_random_forest"].

Definition active_steps_of (steps_par : string) : list string :=
  if negb (steps_par =? "all") then Py.split "," steps_par else _steps.

Definition go (config : DictConfig) (w : world) : M unit :=
  environ_set "WANDB_PROJECT" (MainCfg.project_name (main config)) ;;
  environ_set "WANDB_RUN_GROUP" (MainCfg.experiment_name (main config)) ;;
  let steps_par := MainCfg.steps (main config) in
  let active_steps := active_steps_of steps_par in
  with_TemporaryDirectory w (fun tmp_dir =>
    when (Py.contains "download" active_steps)
      (mlflow_run w Download
         (MainCfg.components_repository (main config) ++ "/get_data")
         "main" (Some "main")
         [("sample", EtlCfg.sample (etl config));
          ("artifact_name", SStr "sample.csv");
          ("artifact_type", SStr "raw_data");
          ("artifact_description", SStr "Raw file as downloaded")]) ;;
    when (Py.contains "basic_cleaning" active_steps)
      (mlflow_run w BasicCleaning
         (Path.join (get_original_cwd w) ["src"; "basic_cleaning"])
         "main" None
         [("input_artifact",
           SStr (MainCfg.project_name (main config) ++ "/"
                 ++ BasicCleaningCfg.input_artifact (basic_cleaning config)
                 ++ ":" ++ MainCfg.latest_tag (main config)));
          ("output_artifact",
           SStr (BasicCleaningCfg.output_artifact (basic_cleaning config)));
          ("output_type", SStr "clean_sample");
          ("output_description",
           SStr "Data with outliers removed and date converted");
          ("min_price", EtlCfg.min_price (etl config));
          ("max_price", EtlCfg.max_price (etl config))]) ;;
    when (Py.contains "data_check" active_steps)
      (mlflow_run w DataCheck
         (Path.join (get_original_cwd w) ["src"; "data_check"])
         "main" None
         [("csv",
           SStr (MainCfg.project_name (main config) ++ "/"
                 ++ BasicCleaningCfg.output_artifact (basic_cleaning config)
                 ++ ":" ++ MainCfg.latest_tag (main config)));
          ("ref",
           SStr (MainCfg.project_name (main config) ++ "/"
                 ++ BasicCleaningCfg.output_artifact (basic_cleaning config)
                 ++ ":" ++ MainCfg.reference_tag (main config)));
          ("kl_threshold", DataCheckCfg.kl_threshold (data_check config));
          ("min_price", EtlCfg.min_price (etl config));
          ("max_price", EtlCfg.max_price (etl config))]) ;;
    when (Py.contains "data_split" active_steps)
      (mlflow_run w DataSplit
         (MainCfg.components_repository (main config)
          ++ "/train_val_test_split")
         "main" None
         [("input",
           SStr (MainCfg.project_name (main config) ++ "/"
                 ++ BasicCleaningCfg.output_artifact (basic_cleaning config)
                 ++ ":" ++ MainCfg.latest_tag (main config)));
          ("test_size", ModelingCfg.test_size (modeling config));
          ("random_seed", ModelingCfg.random_seed (modeling config));
          ("stratify_by", ModelingCfg.stratify_by (modeling config))]) ;;
    when (Py.contains "train_random_forest" active_steps)
      (let rf_config := Path.abspath (getcwd w) "rf_config.json" in
       json_dump_to w rf_config
         (ModelingCfg.random_forest (modeling config)) ;;
       mlflow_run w TrainRandomForest
         (Path.join (get_original_cwd w) ["src"; "train_random_forest"])
         "main" None
         [("trainval_artifact",
           SStr (MainCfg.project_name (main config) ++ "/"
                 ++ ModelingCfg.trainval_artifact (modeling config)
                 ++ ":" ++ MainCfg.latest_tag (main config)));
          ("val_size", ModelingCfg.val_size (modeling config));
          ("random_seed", ModelingCfg.random_seed (modeling config));
          ("stratify_by", ModelingCfg.stratify_by (modeling config));
          ("rf_config", SStr rf_config);
          ("max_tfidf_features",
           ModelingCfg.max_tfidf_features (modeling config));
          ("output_artifact",
           SStr (ModelingCfg.output_artifact (modeling config)))]) ;;
    when (Py.contains "test_regression_model" active_steps)
      (mlflow_run w TestRegressionModel
         (MainCfg.components_repository (main config)
          ++ "/test_regression_model")
         "main" None
         [("mlflow_model",
           SStr (MainCfg.project_name (main config) ++ "/"
                 ++ ModelingCfg.output_artifact (modeling config)
                 ++ ":" ++ MainCfg.prod_tag (main config)));
          ("test_dataset",
           SStr (MainCfg.project_name (main config) ++ "/"
                 ++ ModelingCfg.test_artifact (modeling config)
                 ++ ":" ++ MainCfg.latest_tag (main config)))])).

(** ** Reading a log *)

Definition log {A} (m : M A) : list event := fst m.
Definition outcome {A} (m : M A) : result A := snd m.

(** The stages whose external run was started, in the order of the calls. *)
Fixpoint invoked_stages (l : list event) : list stage :=
  match l with
  | [] => []
  | MlflowRun st _ _ _ _ :: rest => st :: invoked_stages rest
  | _ :: rest => invoked_stages rest
  end.

(** The parameter dictionaries handed to the external runs, by stage. *)
Fixpoint forwarded (l : list event) : list (stage * dict) :=
  match l with
  | [] => []
  | MlflowRun st _ _ _ ps :: rest => (st, ps) :: forwarded rest
  | _ :: rest => forwarded rest
  end.

(** The files the script opens for writing. *)
Fixpoint files_opened (l : list event) : list string :=
  match l with
  | [] => []
  | FileOpen file :: rest => file :: files_opened rest
  | _ :: rest => files_opened rest
  end.

(** The files the script writes, with what it writes into them. *)
Fixpoint files_written (l : list event) : list (string * dict) :=
  match l with
  | [] => []
  | JsonDump file object :: rest => (file, object) :: files_written rest
  | _ :: rest => files_written rest
  end.

(** The temporary directories that exist after the events of the log. *)
Fixpoint tmp_dirs_left (l : list event) (live : list string) : list string :=
  match l with
  | [] => live
  | TmpDirCreate d :: rest => tmp_dirs_left rest (d :: live)
  | TmpDirCleanup d :: rest =>
      tmp_dirs_left rest (filter (fun d' => negb (d' =? d)) live)
  | _ :: rest => tmp_dirs_left rest live
  end.

(** Whether the block of a stage is entered. *)
Definition is_active (config : DictConfig) (st : stage) : bool :=
  Py.contains (stage_name st)
    (active_steps_of (MainCfg.steps (main config))).

(** [main.steps] naming all six stages. *)
Definition every_stage : string :=
  "download,basic_cleaning,data_check,data_split,train_random_forest,test_regression_model".

(** A world with the given working directory in which no run raises. *)
Definition dry_world (cwd : string) : world :=
  {| getcwd := cwd;
     get_original_cwd := "";
     mkdtemp := "";
     open_raises := fun _ => None;
     dump_raises := fun _ _ => None;
     run_raises := fun _ _ _ _ => None |}.

Fixpoint assoc_stage (st : stage) (l : list (stage * dict)) : option dict :=
  match l with
  | [] => None
  | (st', d) :: rest => if stage_eqb st st' then Some d else assoc_stage st rest
  end.

(** The dictionary [go] builds in the block of a stage, read off the run
    in which all six blocks are entered. *)
Definition parameters_for (config : DictConfig) (cwd : string) (st : stage)
  : option dict :=
  assoc_stage st
    (forwarded (log (go (with_steps config every_stage) (dry_world cwd)))).

(** The file of the training stage. *)
Definition rf_config_file (config : DictConfig) (w : world) : string * dict :=
  (Path.abspath (getcwd w) "rf_config.json",
   ModelingCfg.random_forest (modeling config)).

(** The key set of every stage. *)
Definition stage_keys (st : stage) : list string :=
  match st with
  | Download =>
      ["sample"; "artifact_name"; "artifact_type"; "artifact_description"]
  | BasicCleaning =>
      ["input_artifact"; "output_artifact"; "output_type";
       "output_description"; "min_price"; "max_price"]
  | DataCheck => ["csv"; "ref"; "kl_threshold"; "min_price"; "max_price"]
  | DataSplit => ["input"; "test_size"; "random_seed"; "stratify_by"]
  | TrainRandomForest =>
      ["trainval_artifact"; "val_size"; "random_seed"; "stratify_by";
       "rf_config"; "max_tfidf_features"; "output_artifact"]
  | TestRegressionModel => ["mlflow_model"; "test_dataset"]
  end.

(** The names the six tests of [go] look for. *)
Definition recognized : list string := map stage_name program_order.

Definition stage_lt (a b : stage) : Prop := stage_index a < stage_index b.


(** The events that happen inside the [with] block. *)
Definition inside_event (ev : event) : bool :=
  match ev with
  | FileOpen _ | JsonDump _ _ | MlflowRun _ _ _ _ _ => true
  | _ => false
  end.

(** A world in which the file of the training stage cannot be opened. *)
Definition read_only_world (cwd : string) : world :=
  {| getcwd := cwd;
     get_original_cwd := "/home/user/project";
     mkdtemp := "/tmp/tmpabc";
     open_raises := fun _ => Some (OSError "Read-only file system");
     dump_raises := fun _ _ => None;
     run_raises := fun _ _ _ _ => None |}.

(** The exception, if any, with which the call of an event is left. *)
Definition raised_by (w : world) (ev : event) : option exn :=
  match ev with
  | MlflowRun _ uri entry_point version ps =>
      run_raises w uri entry_point version ps
  | _ => None
  end.

(** [s.count(c)] for one character. *)
Fixpoint occurrences (c : ascii) (s : string) : nat :=
  match s with
  | EmptyString => 0
  | String d rest =>
      (if Ascii.eqb d c then 1 else 0) + occurrences c rest
  end.

(** ** Sample inputs *)

Definition sample_config (steps_par : string) : DictConfig :=
  {| main := {| MainCfg.project_name := "nyc_airbnb";
                MainCfg.experiment_name := "development";
                MainCfg.steps := steps_par;
                MainCfg.components_repository := "https://example.org/components";
                MainCfg.latest_tag := "latest";
                MainCfg.reference_tag := "reference";
                MainCfg.prod_tag := "prod" |};
     etl := {| EtlCfg.sample := SStr "sample1.csv";
               EtlCfg.min_price := SInt 10;
               EtlCfg.max_price := SInt 350 |};
     basic_cleaning := {| BasicCleaningCfg.input_artifact := "sample.csv";
                          BasicCleaningCfg.output_artifact := "clean_sample.csv" |};
     data_check := {| DataCheckCfg.kl_threshold := SFloat "0.2" |};
     modeling := {| ModelingCfg.test_size := SFloat "0.2";
                    ModelingCfg.val_size := SFloat "0.2";
                    ModelingCfg.random_seed := SInt 42;
                    ModelingCfg.stratify_by := SStr "neighbourhood_group";
                    ModelingCfg.max_tfidf_features := SInt 5;
                    ModelingCfg.random_forest :=
                      [("n_estimators", SInt 100); ("max_depth", SInt 15)];
                    ModelingCfg.trainval_artifact := "trainval_data.csv";
                    ModelingCfg.test_artifact := "test_data.csv";
                    ModelingCfg.output_artifact := "random_forest_export" |} |}.

(** A world in which nothing raises. *)
Definition quiet_world (cwd : string) : world :=
  {| getcwd := cwd;
     get_original_cwd := "/home/user/project";
     mkdtemp := "/tmp/tmpabc";
     open_raises := fun _ => None;
     dump_raises := fun _ _ => None;
     run_raises := fun _ _ _ _ => None |}.

(** A world in which the runs of the listed project URIs fail. *)
Definition failing_world (bad : list string) : world :=
  {| getcwd := "/home/user/project/outputs";
     get_original_cwd := "/home/user/project";
     mkdtemp := "/tmp/tmpabc";
     open_raises := fun _ => None;
     dump_raises := fun _ _ => None;
     run_raises := fun uri _ _ _ =>
       if Py.contains uri bad
       then Some (MlflowException "Run failed") else None |}.

(** ** Membership and splitting *)

Lemma contains_In (x : string) (l : list string) :
  Py.contains x l = true <-> In x l.
Proof.
  unfold Py.contains. rewrite existsb_exists. split.
  - intros [y [Hy He]]. apply String.eqb_eq in He. now subst.
  - intros H. exists x. split; [assumption | apply String.eqb_refl].
Qed.

Lemma contains_perm (x : string) (l1 l2 : list string) :
  Permutation l1 l2 -> Py.contains x l1 = Py.contains x l2.
Proof.
  intros P. destruct (Py.contains x l2) eqn:E2.
  - apply contains_In. apply contains_In in E2.
    eapply Permutation_in; [apply Permutation_sym |]; eassumption.
  - destruct (Py.contains x l1) eqn:E1; [| reflexivity].
    apply contains_In in E1. eapply Permutation_in in E1; [| eassumption].
    apply contains_In in E1. congruence.
Qed.

(** The two assignments of [go]: their names are legal, so that only the
    value decides. *)
Lemma environ_set_project (value : string) :
  environ_set "WANDB_PROJECT" value
  = if has_nul value then raise (ValueError "embedded null byte")
    else emit (EnvironSet "WANDB_PROJECT" value).
Proof. reflexivity. Qed.

Lemma environ_set_run_group (value : string) :
  environ_set "WANDB_RUN_GROUP" value
  = if has_nul value then raise (ValueError "embedded null byte")
    else emit (EnvironSet "WANDB_RUN_GROUP" value).
Proof. reflexivity. Qed.

(** Case analysis on the assignments, the six tests and the calls that
    are reached.  The arguments of the runs are named first, so that the
    cases stay small; [go_cases] keeps the equations of the names,
    [go_cases_blind] drops them. *)
Ltac name_calls :=
  repeat match goal with
  | |- context [mlflow_run _ _ ?uri _ _ ?ps] =>
      first [ is_var ps; fail 1
            | let p := fresh "ps" in let E := fresh "Eps" in
              remember ps as p eqn:E ]
  | |- context [mlflow_run _ _ ?uri _ _ _] =>
      first [ is_var uri; fail 1
            | let u := fresh "uri" in let E := fresh "Euri" in
              remember uri as u eqn:E ]
  end.

Ltac forget_calls :=
  repeat match goal with
  | H : ?x = _ |- _ => is_var x; clear H
  end.

Ltac step_go :=
  match goal with
  | |- context [if has_nul ?s then _ else _] =>
      destruct (has_nul s) eqn:?
  | |- context [if Py.contains ?n ?l then _ else _] =>
      destruct (Py.contains n l) eqn:?
  | |- context [match open_raises ?w ?f with _ => _ end] =>
      destruct (open_raises w f) eqn:?
  | |- context [match dump_raises ?w ?f ?d with _ => _ end] =>
      destruct (dump_raises w f d) eqn:?
  | |- context [match run_raises ?w ?a ?b ?c ?d with _ => _ end] =>
      destruct (run_raises w a b c d) eqn:?
  end.

Ltac split_cases :=
  unfold with_TemporaryDirectory, when, mlflow_run, json_dump_to, emit,
    raise, bind, ret;
  repeat (step_go; cbn [fst snd app]).

Ltac unfold_go :=
  unfold go; rewrite environ_set_project, environ_set_run_group.

(** Both tactics expect a goal [go config w = (l, r) -> _]. *)
Ltac go_cases :=
  unfold_go; name_calls; split_cases;
  let E := fresh "E" in intros E; injection E as <- <-.

Ltac go_cases_blind :=
  unfold_go; name_calls; forget_calls; split_cases;
  let E := fresh "E" in intros E; injection E as <- <-.

Ltac open_go config w :=
  unfold log, outcome;
  let l := fresh "l" in let r := fresh "r" in let E := fresh "E" in
  destruct (go config w) as [l r] eqn:E; revert E; cbn [fst snd].

(** An event of a given shape in a list that is written out. *)
Ltac find_event := cbn; repeat first [left; reflexivity | right].

(** Hypotheses [In ev l] for a list that is written out, where [ev] is a
    run. *)
Ltac runs_in H :=
  cbn [In] in H;
  repeat match goal with
  | H' : _ \/ _ |- _ => destruct H' as [H' | H']
  | H' : False |- _ => contradiction
  | H' : _ = MlflowRun _ _ _ _ _ |- _ =>
      first [ discriminate H' | injection H' as ? ? ? ? ? ]
  end.

(** *** Every execution, case by case *)

(** The shape of the log and the way [go] is left, read off the cases:
    - the runs that were started are an initial part of the active
      stages taken in program order; the file of the training stage is
      written once for every run of that stage and nothing else is
      written; the temporary directory is gone at the end; no other file
      is opened;
    - when [go] returns, every active stage was invoked, no run raised
      and the two names hold no null byte; when it raises, the exception
      comes from one of the two assignments, from opening or writing the
      file of the training stage, or from a run that was started;
    - an assignment that raises ends [go] at once; otherwise the two
      assignments come first and everything else lies between the
      creation and the removal of the temporary directory. *)
Lemma go_facts (config : DictConfig) (w : world) :
  ((exists k,
       invoked_stages (log (go config w))
       = firstn k (filter (is_active config) program_order))
   /\ files_written (log (go config w))
      = map (fun _ => rf_config_file config w)
          (filter (stage_eqb TrainRandomForest)
             (invoked_stages (log (go config w))))
   /\ tmp_dirs_left (log (go config w)) [] = []
   /\ (files_opened (log (go config w)) = []
       \/ files_opened (log (go config w))
          = [Path.abspath (getcwd w) "rf_config.json"]))
  /\ match outcome (go config w) with
     | Returned _ =>
         invoked_stages (log (go config w))
         = filter (is_active config) program_order
         /\ Forall (fun ev => raised_by w ev = None) (log (go config w))
         /\ has_nul (MainCfg.project_name (main config)) = false
         /\ has_nul (MainCfg.experiment_name (main config)) = false
     | Raised e =>
         (e = ValueError "embedded null byte"
          /\ (has_nul (MainCfg.project_name (main config)) = true
              \/ has_nul (MainCfg.experiment_name (main config)) = true)
          /\ invoked_stages (log (go config w)) = [])
         \/ (is_active config TrainRandomForest = true
             /\ (open_raises w (Path.abspath (getcwd w) "rf_config.json")
                 = Some e
                 \/ dump_raises w
                      (Path.abspath (getcwd w) "rf_config.json")
                      (ModelingCfg.random_forest (modeling config))
                    = Some e)
             /\ ~ In TrainRandomForest
                    (invoked_stages (log (go config w))))
         \/ (exists st uri entry_point version ps,
                In (MlflowRun st uri entry_point version ps)
                   (log (go config w))
                /\ run_raises w uri entry_point version ps = Some e)
     end
  /\ ((has_nul (MainCfg.project_name (main config)) = true
       /\ go config w = ([], Raised (ValueError "embedded null byte")))
      \/ (has_nul (MainCfg.project_name (main config)) = false
          /\ has_nul (MainCfg.experiment_name (main config)) = true
          /\ go config w
             = ([EnvironSet "WANDB_PROJECT"
                   (MainCfg.project_name (main config))],
                Raised (ValueError "embedded null byte")))
      \/ (has_nul (MainCfg.project_name (main config)) = false
          /\ has_nul (MainCfg.experiment_name (main config)) = false
          /\ exists body,
               log (go config w)
               = EnvironSet "WANDB_PROJECT"
                   (MainCfg.project_name (main config))
                 :: EnvironSet "WANDB_RUN_GROUP"
                      (MainCfg.experiment_name (main config))
                 :: TmpDirCreate (mkdtemp w)
                 :: (body ++ [TmpDirCleanup (mkdtemp w)])%list
               /\ forallb inside_event body = true)).
Proof.
  unfold rf_config_file, is_active, program_order.
  cbn [filter stage_name].
  destruct (go config w) as [l r] eqn:E. unfold log, outcome.
  cbn [fst snd]. revert E. go_cases_blind.
  all: split; [| split].
  all: first
    [ (* the log *)
      cbn [tmp_dirs_left filter]; try rewrite String.eqb_refl;
      split;
        [ match goal with
          | |- exists k, invoked_stages ?l = _ =>
              exists (length (invoked_stages l)); reflexivity
          end
        | split; [reflexivity | split; [reflexivity |]] ];
      cbn [files_opened]; first [left; reflexivity | right; reflexivity]
    | (* the brackets *)
      left; split; reflexivity
    | right; left; repeat split; reflexivity
    | right; right; split; [reflexivity |]; split; [reflexivity |];
      match goal with
      | |- exists body, ?l = _ /\ _ =>
          exists (removelast (skipn 3 l)); split; reflexivity
      end
    | (* the outcome *)
      split; [reflexivity |];
      split; [repeat constructor; assumption | split; reflexivity]
    | left; split; [reflexivity |];
      split; [first [left; reflexivity | right; reflexivity]
             | reflexivity]
    | right; left; split; [reflexivity |];
      split; [first [left; reflexivity | right; reflexivity] |];
      cbn; intuition discriminate
    | right; right; eexists _, _, _, _, _; split; [| eassumption];
      cbn [In]; repeat first [left; reflexivity | right] ].
Qed.

Lemma go_any_world (config : DictConfig) (w : world) :
  (exists k,
      invoked_stages (log (go config w))
      = firstn k (filter (is_active config) program_order))
  /\ files_written (log (go config w))
     = map (fun _ => rf_config_file config w)
         (filter (stage_eqb TrainRandomForest)
            (invoked_stages (log (go config w))))
  /\ tmp_dirs_left (log (go config w)) [] = []
  /\ (files_opened (log (go config w)) = []
      \/ files_opened (log (go config w))
         = [Path.abspath (getcwd w) "rf_config.json"]).
Proof. apply go_facts. Qed.

Lemma go_when_returned (config : DictConfig) (w : world) :
  outcome (go config w) = Returned tt ->
  invoked_stages (log (go config w))
  = filter (is_active config) program_order.
Proof.
  intros H. destruct (go_facts config w) as [_ [Hc _]].
  rewrite H in Hc. apply Hc.
Qed.

(** Dropping the dictionaries but not the project URIs. *)
Ltac forget_dicts :=
  repeat match goal with
  | H : ?x = _ |- _ =>
      is_var x;
      lazymatch type of x with
      | string => fail
      | _ => clear H
      end
  end.

(** Under names without null byte the run that enters all six blocks
    gets to every block. *)
Ltac eval_dry :=
  unfold parameters_for; unfold_go;
  cbn [with_steps main etl basic_cleaning data_check modeling
       MainCfg.steps MainCfg.project_name MainCfg.experiment_name
       MainCfg.components_repository MainCfg.latest_tag
       MainCfg.reference_tag MainCfg.prod_tag].

Ltac dry_fact config w st :=
  match goal with
  | |- context [mlflow_run _ st _ _ _ ?p] =>
      let F := fresh "F" in
      assert (F : has_nul (MainCfg.project_name (main config)) = false ->
                  has_nul (MainCfg.experiment_name (main config)) = false ->
                  parameters_for config (getcwd w) st = Some p)
        by (let N1 := fresh in let N2 := fresh in
            intros N1 N2; subst; eval_dry; rewrite N1, N2; reflexivity)
  end.

(** The place of the dump before a training run. *)
Ltac dump_then_run l :=
  first
    [ exists (firstn 4 l), (skipn 6 l); reflexivity
    | exists (firstn 5 l), (skipn 7 l); reflexivity
    | exists (firstn 6 l), (skipn 8 l); reflexivity
    | exists (firstn 7 l), (skipn 9 l); reflexivity
    | exists (firstn 8 l), (skipn 10 l); reflexivity ].

(** What holds of a run in the log:
    - its dictionary is the one [go] builds in the block of its stage;
    - it is started at "main", with a version for download only, from
      the components repository or from [src] in the original working
      directory;
    - when it raises, its exception is the outcome and only the removal
      of the temporary directory follows the call;
    - a training run comes right after the dump of its file. *)
Lemma go_run_facts (config : DictConfig) (w : world) (st : stage)
    (uri entry_point : string) (version : option string) (ps : dict) :
  In (MlflowRun st uri entry_point version ps) (log (go config w)) ->
  parameters_for config (getcwd w) st = Some ps
  /\ (entry_point = "main"
      /\ version = match st with Download => Some "main" | _ => None end
      /\ uri = match st with
               | Download =>
                   MainCfg.components_repository (main config)
                   ++ "/get_data"
               | DataSplit =>
                   MainCfg.components_repository (main config)
                   ++ "/train_val_test_split"
               | TestRegressionModel =>
                   MainCfg.components_repository (main config)
                   ++ "/test_regression_model"
               | _ => Path.join (get_original_cwd w) ["src"; stage_name st]
               end)
  /\ (forall e,
         run_raises w uri entry_point version ps = Some e ->
         outcome (go config w) = Raised e
         /\ exists before,
              log (go config w)
              = (before ++ [MlflowRun st uri entry_point version ps;
                            TmpDirCleanup (mkdtemp w)])%list)
  /\ (st = TrainRandomForest ->
      exists before after,
        log (go config w)
        = (before
           ++ JsonDump (Path.abspath (getcwd w) "rf_config.json")
                (ModelingCfg.random_forest (modeling config))
              :: MlflowRun st uri entry_point version ps
              :: after)%list).
Proof.
  revert st uri entry_point version ps.
  destruct (go config w) as [l r] eqn:E. unfold log, outcome.
  cbn [fst snd]. revert E. unfold_go. name_calls.
  dry_fact config w Download. dry_fact config w BasicCleaning.
  dry_fact config w DataCheck. dry_fact config w DataSplit.
  dry_fact config w TrainRandomForest.
  dry_fact config w TestRegressionModel.
  forget_dicts. split_cases.
  all: intros E; injection E as <- <-.
  all: intros ? ? ? ? ? HIn; runs_in HIn;
    repeat match goal with H : _ = ?x |- _ => is_var x; subst x end.
  all: split; [auto |].
  all: split; [repeat split; cbn [stage_name]; assumption |].
  all: split;
    [ let Hr := fresh in intros ? Hr;
      first
        [ congruence
        | split; [congruence |];
          match goal with
          | |- exists before, ?l = _ =>
              exists (removelast (removelast l)); reflexivity
          end ]
    | let H := fresh in intros H;
      first [ discriminate H
            | match goal with
              | |- exists before after, ?l = _ => dump_then_run l
              end ] ].
Qed.

(** A run that raises ends [go]: its exception is the outcome, and only
    the removal of the temporary directory follows the call. *)
Lemma raising_run_is_last (config : DictConfig) (w : world) (st : stage)
    (uri entry_point : string) (version : option string) (ps : dict)
    (e : exn) :
  In (MlflowRun st uri entry_point version ps) (log (go config w)) ->
  run_raises w uri entry_point version ps = Some e ->
  outcome (go config w) = Raised e
  /\ exists before,
       log (go config w)
       = (before ++ [MlflowRun st uri entry_point version ps;
                     TmpDirCleanup (mkdtemp w)])%list.
Proof.
  intros HIn. apply (go_run_facts config w st uri entry_point version ps HIn).
Qed.

(** The dictionary forwarded for a stage is the one [go] builds in the
    block of that stage: it depends on the configuration and on the
    working directory only. *)
Lemma forwarded_parameters (config : DictConfig) (w : world) (st : stage)
    (uri entry_point : string) (version : option string) (ps : dict) :
  In (MlflowRun st uri entry_point version ps) (log (go config w)) ->
  parameters_for config (getcwd w) st = Some ps.
Proof. intros HIn. apply (go_run_facts config w st _ _ _ ps HIn). Qed.

Lemma training_run_follows_dump (config : DictConfig) (w : world)
    (uri entry_point : string) (version : option string) (ps : dict) :
  In (MlflowRun TrainRandomForest uri entry_point version ps)
     (log (go config w)) ->
  exists before after,
    log (go config w)
    = (before
       ++ JsonDump (Path.abspath (getcwd w) "rf_config.json")
            (ModelingCfg.random_forest (modeling config))
          :: MlflowRun TrainRandomForest uri entry_point version ps
          :: after)%list.
Proof.
  intros HIn.
  now apply (go_run_facts config w TrainRandomForest uri entry_point
               version ps HIn).
Qed.

(** ** Lists of stages *)

Lemma sorted_filter {A} (R : A -> A -> Prop) (f : A -> bool) (l : list A) :
  StronglySorted R l -> StronglySorted R (filter f l).
Proof.
  induction 1 as [| a l Hs IH Ha]; cbn; [constructor |].
  destruct (f a); [| assumption].
  constructor; [assumption |].
  rewrite Forall_forall in *. intros x Hx.
  apply filter_In in Hx. apply Ha, Hx.
Qed.

Lemma sorted_firstn {A} (R : A -> A -> Prop) (k : nat) (l : list A) :
  StronglySorted R l -> StronglySorted R (firstn k l).
Proof.
  intros Hs. revert k.
  induction Hs as [| a l Hs IH Ha]; intros [| k]; cbn; try constructor.
  - apply IH.
  - rewrite Forall_forall in *. intros x Hx.
    apply Ha. rewrite <- (firstn_skipn k l). apply in_or_app. now left.
Qed.

Lemma sorted_last {A} (R : A -> A -> Prop) (l : list A) (x : A) :
  StronglySorted R (l ++ [x]) -> Forall (fun y => R y x) l.
Proof.
  induction l as [| a l IH]; cbn; intros Hs; [constructor |].
  inversion Hs as [| ? ? Hs' Ha]; subst.
  constructor; [| now apply IH].
  rewrite Forall_forall in Ha. apply Ha, in_or_app. right. now left.
Qed.

Lemma stage_lt_NoDup (l : list stage) :
  StronglySorted stage_lt l -> NoDup l.
Proof.
  induction 1 as [| a l Hs IH Ha]; constructor; [| assumption].
  intros Hin. rewrite Forall_forall in Ha.
  specialize (Ha a Hin). unfold stage_lt in Ha. lia.
Qed.

Lemma program_order_sorted : StronglySorted stage_lt program_order.
Proof.
  unfold program_order, stage_lt.
  repeat (constructor; [| repeat constructor; cbn; lia]).
  constructor.
Qed.

Lemma invoked_stages_app (a b : list event) :
  invoked_stages (a ++ b) = (invoked_stages a ++ invoked_stages b)%list.
Proof.
  induction a as [| ev a IH]; [reflexivity |].
  destruct ev; cbn; rewrite IH; reflexivity.
Qed.

Lemma invoked_sorted (config : DictConfig) (w : world) :
  StronglySorted stage_lt (invoked_stages (log (go config w))).
Proof.
  destruct (go_any_world config w) as [[k Hk] _]. rewrite Hk.
  apply sorted_firstn, sorted_filter, program_order_sorted.
Qed.

Lemma firstn_incl {A} (k : nat) (l : list A) (x : A) :
  In x (firstn k l) -> In x l.
Proof.
  intros H. rewrite <- (firstn_skipn k l). apply in_or_app. now left.
Qed.

Lemma invoked_is_active (config : DictConfig) (w : world) (st : stage) :
  In st (invoked_stages (log (go config w))) -> is_active config st = true.
Proof.
  destruct (go_any_world config w) as [[k Hk] _]. rewrite Hk.
  intros H. apply firstn_incl, filter_In in H. tauto.
Qed.

Lemma active_steps_of_not_all (s : string) :
  s <> "all" -> active_steps_of s = Py.split "," s.
Proof.
  intros H. unfold active_steps_of.
  apply String.eqb_neq in H. now rewrite H.
Qed.

Lemma is_active_In (config : DictConfig) (st : stage) :
  is_active config st = true
  <-> In (stage_name st) (active_steps_of (MainCfg.steps (main config))).
Proof. apply contains_In. Qed.

(** ** C1 *)

(** C1 fails as stated: with [main.steps] "download,basic_cleaning" and a
    download run that raises, basic_cleaning is a recognized name among
    the pieces but is not invoked. *)
Lemma failed_download_hides_basic_cleaning :
  MainCfg.steps (main (sample_config "download,basic_cleaning")) <> "all"
  /\ In "basic_cleaning" recognized
  /\ In "basic_cleaning" (Py.split "," "download,basic_cleaning")
  /\ ~ In "basic_cleaning"
         (map stage_name
            (invoked_stages
               (log (go (sample_config "download,basic_cleaning")
                       (failing_world
                          ["https://example.org/components/get_data"]))))).
Proof.
  split; [cbn; discriminate |].
  split; [cbn; tauto |]. split; [cbn; tauto |].
  cbn. intuition discriminate.
Qed.



(** ** C2 *)




(** ** C3 *)

Lemma parameters_for_with_steps (config : DictConfig) (s cwd : string)
    (st : stage) :
  parameters_for (with_steps config s) cwd st = parameters_for config cwd st.
Proof. reflexivity. Qed.

(** The run that enters all six blocks stops at once under a name with a
    null byte; the cases of a statement about [parameters_for]. *)
Ltac dry_cases config :=
  eval_dry;
  destruct (has_nul (MainCfg.project_name (main config)));
    [intros; discriminate |];
  destruct (has_nul (MainCfg.experiment_name (main config)));
    [intros; discriminate |].

Lemma parameters_for_keys (config : DictConfig) (cwd : string) (st : stage)
    (ps : dict) :
  parameters_for config cwd st = Some ps -> keys ps = stage_keys st.
Proof. dry_cases config. destruct st; intros [= <-]; reflexivity. Qed.

Lemma parameters_for_cwd (config : DictConfig) (cwd cwd' : string)
    (st : stage) (ps ps' : dict) :
  parameters_for config cwd st = Some ps ->
  parameters_for config cwd' st = Some ps' ->
  without "rf_config" ps' = without "rf_config" ps
  /\ (st <> TrainRandomForest -> ps' = ps).
Proof.
  dry_cases config.
  destruct st; intros [= <-] [= <-]; split; try reflexivity;
    intros H; contradiction.
Qed.

(** What [parameters_for] gives for the stages the statements below look
    into. *)
Lemma parameters_for_download (config : DictConfig) (cwd : string)
    (ps : dict) :
  parameters_for config cwd Download = Some ps ->
  ps = [("sample", EtlCfg.sample (etl config));
        ("artifact_name", SStr "sample.csv");
        ("artifact_type", SStr "raw_data");
        ("artifact_description", SStr "Raw file as downloaded")].
Proof. dry_cases config. now intros [= <-]. Qed.

Lemma parameters_for_rf_config (config : DictConfig) (cwd : string)
    (ps : dict) :
  parameters_for config cwd TrainRandomForest = Some ps ->
  get "rf_config" ps = Some (SStr (Path.abspath cwd "rf_config.json")).
Proof. dry_cases config. now intros [= <-]. Qed.

(** C3 fails as stated: the value forwarded under the key rf_config is
    neither a literal nor computed from the configuration, for one
    configuration gives two values in two working directories. *)
Lemma rf_config_follows_working_directory :
  exists uri ps1 ps2,
    In (MlflowRun TrainRandomForest uri "main" None ps1)
       (log (go (sample_config "train_random_forest") (quiet_world "/a")))
    /\ In (MlflowRun TrainRandomForest uri "main" None ps2)
          (log (go (sample_config "train_random_forest") (quiet_world "/b")))
    /\ get "rf_config" ps1 = Some (SStr "/a/rf_config.json")
    /\ get "rf_config" ps2 = Some (SStr "/b/rf_config.json").
Proof.
  do 3 eexists. split; [| split; [| split]].
  - find_event.
  - find_event.
  - reflexivity.
  - reflexivity.
Qed.

(** C3, amended.  Every parameter dictionary that [go] forwards has the
    fixed key set of its stage; the download stage forwards exactly the
    keys sample, artifact_name, artifact_type and artifact_description,
    with the configured sample and the literals "sample.csv", "raw_data"
    and "Raw file as downloaded"; and every value is a literal or computed
    from configuration entries other than [main.steps] only (the working
    directories, the outcome of the runs and [main.steps] do not change
    it), except the value under rf_config of the training stage, which is
    the absolute path of rf_config.json in the working directory. *)
Theorem forwarded_keys_and_values (config : DictConfig) (w : world)
    (st : stage) (uri entry_point : string) (version : option string)
    (ps : dict) :
  In (MlflowRun st uri entry_point version ps) (log (go config w)) ->
  keys ps = stage_keys st
  /\ (st = Download ->
      ps = [("sample", EtlCfg.sample (etl config));
            ("artifact_name", SStr "sample.csv");
            ("artifact_type", SStr "raw_data");
            ("artifact_description", SStr "Raw file as downloaded")])
  /\ (forall s' w' uri' entry_point' version' ps',
        In (MlflowRun st uri' entry_point' version' ps')
           (log (go (with_steps config s') w')) ->
        without "rf_config" ps' = without "rf_config" ps
        /\ (st <> TrainRandomForest -> ps' = ps))
  /\ (st = TrainRandomForest ->
      get "rf_config" ps
      = Some (SStr (Path.abspath (getcwd w) "rf_config.json"))).
Proof.
  intros HIn. apply forwarded_parameters in HIn.
  split; [eapply parameters_for_keys; eassumption |].
  split; [intros ->; eapply parameters_for_download; eassumption |].
  split.
  - intros s' w' uri' ep' ver' ps' HIn'.
    apply forwarded_parameters in HIn'.
    rewrite parameters_for_with_steps in HIn'.
    eapply parameters_for_cwd; eassumption.
  - intros ->. eapply parameters_for_rf_config; eassumption.
Qed.

Lemma forwarded_keys_and_values_witness :
  keys [("mlflow_model", SStr "nyc_airbnb/random_forest_export:prod");
        ("test_dataset", SStr "nyc_airbnb/test_data.csv:latest")]
  = stage_keys TestRegressionModel.
Proof.
  apply (forwarded_keys_and_values
           (sample_config "test_regression_model") (quiet_world "/w")
           TestRegressionModel
           "https://example.org/components/test_regression_model"
           "main" None).
  find_event.
Defined.

(** ** C4 *)

Lemma go_depends_on_membership (config : DictConfig) (w : world)
    (s1 s2 : string) :
  (forall st,
      Py.contains (stage_name st) (active_steps_of s1)
      = Py.contains (stage_name st) (active_steps_of s2)) ->
  go (with_steps config s1) w = go (with_steps config s2) w.
Proof.
  intros H. unfold go. cbn [with_steps main etl basic_cleaning data_check
    modeling MainCfg.steps MainCfg.project_name MainCfg.experiment_name
    MainCfg.components_repository MainCfg.latest_tag MainCfg.reference_tag
    MainCfg.prod_tag].
  pose proof (H Download) as H1. pose proof (H BasicCleaning) as H2.
  pose proof (H DataCheck) as H3. pose proof (H DataSplit) as H4.
  pose proof (H TrainRandomForest) as H5.
  pose proof (H TestRegressionModel) as H6.
  cbn [stage_name] in H1, H2, H3, H4, H5, H6.
  rewrite H1, H2, H3, H4, H5, H6. reflexivity.
Qed.

(** C4.  The stages [go] invokes are invoked one after the other in the
    fixed program order, whatever the order of their names in
    [main.steps]: the list of started runs is strictly increasing in
    program order, it is an initial part of the active stages taken in
    program order, and reordering the names leaves the whole run of [go]
    unchanged. *)
Theorem stages_run_in_program_order (config : DictConfig) (w : world) :
  StronglySorted stage_lt (invoked_stages (log (go config w)))
  /\ (exists k,
         invoked_stages (log (go config w))
         = firstn k (filter (is_active config) program_order))
  /\ (forall s1 s2,
         Permutation (active_steps_of s1) (active_steps_of s2) ->
         go (with_steps config s1) w = go (with_steps config s2) w).
Proof.
  split; [apply invoked_sorted |].
  split; [apply go_any_world |].
  intros s1 s2 P. apply go_depends_on_membership.
  intros st. now apply contains_perm.
Qed.

Lemma stages_run_in_program_order_witness :
  go (with_steps (sample_config "") "train_random_forest,download")
     (quiet_world "/w")
  = go (with_steps (sample_config "") "download,train_random_forest")
       (quiet_world "/w").
Proof.
  apply (stages_run_in_program_order (sample_config "") (quiet_world "/w")).
  cbn. apply perm_swap.
Defined.

(** ** C5 *)

Lemma at_most_one_training_run {A} (x : A) (l : list stage) :
  NoDup l ->
  (map (fun _ => x) (filter (stage_eqb TrainRandomForest) l) = []
   /\ ~ In TrainRandomForest l)
  \/ (map (fun _ => x) (filter (stage_eqb TrainRandomForest) l) = [x]
      /\ In TrainRandomForest l).
Proof.
  induction 1 as [| st l Hnotin Hnd IH].
  - left. split; [reflexivity | intros []].
  - destruct IH as [[E Hn] | [E Hi]].
    + destruct st; cbn; cbn in E; rewrite E;
        try (left; split; [reflexivity | intros [H | H];
                                        [discriminate | contradiction]]).
      right. split; [reflexivity | now left].
    + destruct st; cbn; cbn in E; rewrite E;
        try (right; split; [reflexivity | now right]).
      contradiction.
Qed.

Lemma written_files_shape (config : DictConfig) (w : world) :
  (files_written (log (go config w)) = []
   /\ ~ In TrainRandomForest (invoked_stages (log (go config w))))
  \/ (files_written (log (go config w)) = [rf_config_file config w]
      /\ In TrainRandomForest (invoked_stages (log (go config w)))).
Proof.
  destruct (go_any_world config w) as [_ [Hf _]]. rewrite Hf.
  apply at_most_one_training_run, stage_lt_NoDup, invoked_sorted.
Qed.

(** C5 fails as stated: with [main.steps] "all" and a data_check run that
    raises, train_random_forest is active and no file is written. *)
Lemma active_training_without_file :
  In "train_random_forest"
    (active_steps_of (MainCfg.steps (main (sample_config "all"))))
  /\ files_written
       (log (go (sample_config "all")
               (failing_world ["/home/user/project/src/data_check"])))
     = [].
Proof. split; [cbn; tauto | reflexivity]. Qed.



(** ** C6 *)

(** C6.  When the external run of a stage raises, [go] is left with that
    very exception: in the log only the removal of the temporary
    directory follows the failing call, so no later stage is invoked. *)
Theorem failed_run_propagates (config : DictConfig) (w : world) (st : stage)
    (uri entry_point : string) (version : option string) (ps : dict)
    (e : exn) :
  In (MlflowRun st uri entry_point version ps) (log (go config w)) ->
  run_raises w uri entry_point version ps = Some e ->
  outcome (go config w) = Raised e
  /\ (exists before,
         log (go config w)
         = (before ++ [MlflowRun st uri entry_point version ps;
                       TmpDirCleanup (mkdtemp w)])%list)
  /\ (forall st', In st' (invoked_stages (log (go config w))) ->
                  stage_index st' <= stage_index st).
Proof.
  intros HIn Hr.
  destruct (raising_run_is_last config w st uri entry_point version ps e
              HIn Hr) as [Ho [before Hl]].
  split; [assumption |]. split; [now exists before |].
  pose proof (invoked_sorted config w) as Hs.
  rewrite Hl in *. rewrite invoked_stages_app in *. cbn in *.
  intros st' Hst'. apply in_app_or in Hst'. destruct Hst' as [Hb | [<- | []]].
  - apply sorted_last in Hs. rewrite Forall_forall in Hs.
    specialize (Hs st' Hb). unfold stage_lt in Hs. lia.
  - lia.
Qed.

Lemma failed_run_propagates_witness :
  outcome (go (sample_config "all")
             (failing_world ["/home/user/project/src/data_check"]))
  = Raised (MlflowException "Run failed")
  /\ (exists before,
         log (go (sample_config "all")
                (failing_world ["/home/user/project/src/data_check"]))
         = (before
            ++ [MlflowRun DataCheck "/home/user/project/src/data_check"
                  "main" None
                  [("csv", SStr "nyc_airbnb/clean_sample.csv:latest");
                   ("ref", SStr "nyc_airbnb/clean_sample.csv:reference");
                   ("kl_threshold", SFloat "0.2");
                   ("min_price", SInt 10);
                   ("max_price", SInt 350)];
                TmpDirCleanup "/tmp/tmpabc"])%list)
  /\ (forall st',
         In st' (invoked_stages
                   (log (go (sample_config "all")
                           (failing_world
                              ["/home/user/project/src/data_check"])))) ->
         stage_index st' <= stage_index DataCheck).
Proof.
  apply (failed_run_propagates (sample_config "all")
           (failing_world ["/home/user/project/src/data_check"])
           DataCheck "/home/user/project/src/data_check" "main" None
           [("csv", SStr "nyc_airbnb/clean_sample.csv:latest");
            ("ref", SStr "nyc_airbnb/clean_sample.csv:reference");
            ("kl_threshold", SFloat "0.2");
            ("min_price", SInt 10);
            ("max_price", SInt 350)]).
  - find_event.
  - reflexivity.
Defined.

(** ** C7 *)

(** C7.  Every stage is invoked at most once in a run of [go], whether
    its run succeeds or raises, and also when its name is repeated in
    [main.steps]: with "download,data_split,download" an execution from
    which [go] returns has started download once and data_split once. *)
Theorem each_stage_runs_at_most_once (config : DictConfig) (w : world) :
  (forall st,
      count_occ stage_eq_dec (invoked_stages (log (go config w))) st <= 1)
  /\ (outcome (go (with_steps config "download,data_split,download") w)
      = Returned tt ->
      invoked_stages
        (log (go (with_steps config "download,data_split,download") w))
      = [Download; DataSplit]).
Proof.
  split.
  - apply NoDup_count_occ, stage_lt_NoDup, invoked_sorted.
  - intros R. rewrite (go_when_returned _ w R). reflexivity.
Qed.

Lemma each_stage_runs_at_most_once_witness :
  invoked_stages
    (log (go (with_steps (sample_config "all") "download,data_split,download")
            (quiet_world "/w")))
  = [Download; DataSplit].
Proof.
  apply (each_stage_runs_at_most_once (sample_config "all")
           (quiet_world "/w")).
  reflexivity.
Defined.

(** ** C8 *)









(** ** C9 *)

Lemma split_nonempty (sep : ascii) (s : string) : Py.split sep s <> [].
Proof.
  destruct s as [| c s]; cbn; [discriminate |].
  destruct (Ascii.eqb c sep); [discriminate |].
  destruct (Py.split sep s); discriminate.
Qed.

Lemma split_app (sep : ascii) (s x : string) :
  Py.split sep (s ++ String sep x)
  = (Py.split sep s ++ Py.split sep x)%list.
Proof.
  induction s as [| c s IH].
  - cbn. now rewrite Ascii.eqb_refl.
  - cbn. destruct (Ascii.eqb c sep).
    + now rewrite IH.
    + rewrite IH. pose proof (split_nonempty sep s) as Hne.
      destruct (Py.split sep s); [contradiction | reflexivity].
Qed.

Lemma with_comma_not_all (s x : string) : s ++ "," ++ x <> "all".
Proof.
  destruct s as [| c1 [| c2 [| c3 [| c4 s]]]]; cbn; intros H;
    inversion H.
Qed.

(** C9.  With [main.steps] other than "all", the pieces that are not one
    of the six stage names change nothing, neither in what [go] does nor
    in how it is left: two step strings with the same recognized names
    among their pieces give the same run of [go], and adding an
    unrecognized piece gives the same run.  The empty string invokes no
    stage, and a name with a blank before it, "All" and a name with a
    blank after it behave like the empty string. *)
Theorem unrecognized_names_are_ignored (config : DictConfig) (w : world) :
  (forall s1 s2,
      s1 <> "all" -> s2 <> "all" ->
      (forall name, In name recognized ->
                    (In name (Py.split "," s1) <-> In name (Py.split "," s2))) ->
      go (with_steps config s1) w = go (with_steps config s2) w)
  /\ (forall s x,
         s <> "all" -> Py.split "," x = [x] -> ~ In x recognized ->
         go (with_steps config (s ++ "," ++ x)) w
         = go (with_steps config s) w)
  /\ invoked_stages (log (go (with_steps config "") w)) = []
  /\ go (with_steps config " download,All,data_check ") w
     = go (with_steps config "") w.
Proof.
  assert (Hsame : forall s1 s2,
             s1 <> "all" -> s2 <> "all" ->
             (forall name, In name recognized ->
                (In name (Py.split "," s1) <-> In name (Py.split "," s2))) ->
             go (with_steps config s1) w = go (with_steps config s2) w).
  { intros s1 s2 H1 H2 H. apply go_depends_on_membership. intros st.
    rewrite (active_steps_of_not_all _ H1), (active_steps_of_not_all _ H2).
    assert (Hrec : In (stage_name st) recognized)
      by (unfold recognized; apply in_map; destruct st; cbn; tauto).
    specialize (H _ Hrec).
    destruct (Py.contains (stage_name st) (Py.split "," s2)) eqn:E2.
    - apply contains_In. apply H. now apply contains_In.
    - destruct (Py.contains (stage_name st) (Py.split "," s1)) eqn:E1;
        [| reflexivity].
      apply contains_In in E1. apply H in E1. apply contains_In in E1.
      congruence. }
  split; [exact Hsame |]. split; [| split].
  - intros s x Hs Hx Hnot. apply Hsame; [apply with_comma_not_all | exact Hs |].
    intros name Hrec. cbn [append]. rewrite split_app, Hx. split.
    + intros Hin. apply in_app_or in Hin. destruct Hin as [Hin | [<- | []]].
      * exact Hin.
      * contradiction.
    + intros Hin. apply in_or_app. now left.
  - destruct (invoked_stages (log (go (with_steps config "") w)))
      as [| st l] eqn:E; [reflexivity |].
    assert (Hin : In st (invoked_stages (log (go (with_steps config "") w))))
      by (rewrite E; now left).
    apply invoked_is_active in Hin. destruct st; discriminate Hin.
  - apply go_depends_on_membership. intros st. destruct st; reflexivity.
Qed.

Lemma unrecognized_names_are_ignored_witness :
  go (with_steps (sample_config "all") ("download,data_split" ++ "," ++ "All"))
     (quiet_world "/w")
  = go (with_steps (sample_config "all") "download,data_split")
       (quiet_world "/w").
Proof.
  apply (unrecognized_names_are_ignored (sample_config "all")
           (quiet_world "/w")).
  - discriminate.
  - reflexivity.
  - cbn. intuition discriminate.
Defined.

(** ** C10 *)

(** C10 fails as stated: with [main.steps] "download,basic_cleaning" and a
    download run that raises, basic_cleaning is a member of the active
    steps and is not invoked. *)
Lemma named_stage_not_reached :
  In (stage_name BasicCleaning)
    (active_steps_of
       (MainCfg.steps (main (sample_config "download,basic_cleaning"))))
  /\ ~ In BasicCleaning
         (invoked_stages
            (log (go (sample_config "download,basic_cleaning")
                    (failing_world
                       ["https://example.org/components/get_data"])))).
Proof. split; [cbn; tauto | cbn; intuition discriminate]. Qed.



(** ** The log as a whole *)


(** ** Where the runs are taken from *)

Lemma endswith_char_app (c : ascii) (a b : string) :
  b <> "" -> Py.endswith_char c (a ++ b) = Py.endswith_char c b.
Proof.
  intros Hb. induction a as [| d a IH]; [reflexivity |].
  cbn [append Py.endswith_char]. rewrite IH.
  destruct (a ++ b) eqn:E; [| reflexivity].
  destruct a; cbn in E; [contradiction | discriminate].
Qed.

Lemma append_assoc (a b c : string) : (a ++ b) ++ c = a ++ (b ++ c).
Proof. induction a as [| d a IH]; cbn; [reflexivity | now rewrite IH]. Qed.

Lemma append_not_empty (a b : string) : b <> "" -> a ++ b <> "".
Proof. destruct a; cbn; [tauto | discriminate]. Qed.

Lemma join_src (d name : string) :
  d <> "" -> Py.endswith_char "/" d = false ->
  Py.startswith "/" name = false ->
  Path.join d ["src"; name] = d ++ "/src/" ++ name.
Proof.
  intros Hd He Hn. unfold Path.join. cbn [fold_left].
  assert (H1 : Path.join2 d "src" = d ++ "/src").
  { unfold Path.join2. cbn [Py.startswith prefix].
    apply String.eqb_neq in Hd. now rewrite Hd, He. }
  rewrite H1. unfold Path.join2. rewrite Hn.
  assert (H2 : (d ++ "/src" =? "") = false)
    by (apply String.eqb_neq, append_not_empty; discriminate).
  rewrite H2, endswith_char_app by discriminate.
  cbn [Py.endswith_char orb Ascii.eqb Bool.eqb].
  rewrite append_assoc. reflexivity.
Qed.

(** X2.  Every external run is started at the entry point "main"; only the
    download stage pins a version ("main"); download, data_split and
    test_regression_model are taken from the components repository, the
    other three from the directory [src] of the original working
    directory, under the name of the stage when that directory is a
    non-empty path without a final slash. *)
Theorem run_coordinates (config : DictConfig) (w : world) (st : stage)
    (uri entry_point : string) (version : option string) (ps : dict) :
  In (MlflowRun st uri entry_point version ps) (log (go config w)) ->
  entry_point = "main"
  /\ version = match st with Download => Some "main" | _ => None end
  /\ uri = match st with
           | Download =>
               MainCfg.components_repository (main config) ++ "/get_data"
           | DataSplit =>
               MainCfg.components_repository (main config)
               ++ "/train_val_test_split"
           | TestRegressionModel =>
               MainCfg.components_repository (main config)
               ++ "/test_regression_model"
           | _ => Path.join (get_original_cwd w) ["src"; stage_name st]
           end
  /\ (get_original_cwd w <> "" ->
      Py.endswith_char "/" (get_original_cwd w) = false ->
      st = BasicCleaning \/ st = DataCheck \/ st = TrainRandomForest ->
      uri = get_original_cwd w ++ "/src/" ++ stage_name st).
Proof.
  intros HIn.
  destruct (go_run_facts config w st uri entry_point version ps HIn)
    as [_ [H _]].
  destruct H as [He [Hv Hu]]. repeat split; try assumption.
  intros Hd Hs Hst. rewrite Hu.
  destruct Hst as [-> | [-> | ->]]; now apply join_src.
Qed.

Lemma run_coordinates_witness :
  "/home/user/project/src/data_check"
  = get_original_cwd (quiet_world "/w") ++ "/src/" ++ stage_name DataCheck.
Proof.
  apply (run_coordinates (sample_config "data_check") (quiet_world "/w")
           DataCheck "/home/user/project/src/data_check" "main" None
           [("csv", SStr "nyc_airbnb/clean_sample.csv:latest");
            ("ref", SStr "nyc_airbnb/clean_sample.csv:reference");
            ("kl_threshold", SFloat "0.2");
            ("min_price", SInt 10);
            ("max_price", SInt 350)]).
  - find_event.
  - discriminate.
  - reflexivity.
  - right. left. reflexivity.
Defined.

(** ** The file of the training stage *)

Lemma isabs_append (a b : string) :
  Path.isabs a = true -> Path.isabs (a ++ b) = true.
Proof.
  unfold Path.isabs, Py.startswith.
  destruct a as [| c a]; cbn [append prefix]; [discriminate |].
  destruct (ascii_dec "/" c); [| discriminate].
  intros _. destruct (a ++ b); reflexivity.
Qed.

Lemma isabs_slash (x : string) : Path.isabs (String "/" x) = true.
Proof.
  unfold Path.isabs, Py.startswith. cbn. destruct x; reflexivity.
Qed.

Lemma normpath_isabs (p : string) :
  Path.isabs p = true -> Path.isabs (Path.normpath p) = true.
Proof.
  intros Hp. unfold Path.normpath.
  destruct (p =? "") eqn:E;
    [apply String.eqb_eq in E; subst; discriminate |].
  unfold Path.isabs in Hp. rewrite Hp.
  destruct (Py.startswith "//" p && negb (Py.startswith "///" p));
    cbn [append String.eqb]; apply isabs_slash.
Qed.

Lemma abspath_isabs (cwd p : string) :
  Path.isabs cwd = true -> Path.isabs (Path.abspath cwd p) = true.
Proof.
  intros Hc. unfold Path.abspath. apply normpath_isabs.
  destruct (Path.isabs p) eqn:Hp; [assumption |].
  unfold Path.join. cbn [fold_left]. unfold Path.join2.
  unfold Path.isabs in Hp. rewrite Hp.
  destruct ((cwd =? "") || Py.endswith_char "/" cwd);
    now apply isabs_append.
Qed.

(** X3.  The training run is started right after rf_config.json has been
    written, and the value it receives under rf_config is the path of
    that very file; the path is absolute whenever the working directory
    is. *)
Theorem training_run_reads_written_file (config : DictConfig) (w : world)
    (uri entry_point : string) (version : option string) (ps : dict) :
  In (MlflowRun TrainRandomForest uri entry_point version ps)
     (log (go config w)) ->
  exists before after file,
    log (go config w)
    = (before
       ++ JsonDump file (ModelingCfg.random_forest (modeling config))
          :: MlflowRun TrainRandomForest uri entry_point version ps
          :: after)%list
    /\ get "rf_config" ps = Some (SStr file)
    /\ (Path.isabs (getcwd w) = true -> Path.isabs file = true).
Proof.
  intros HIn.
  destruct (training_run_follows_dump config w uri entry_point version ps
              HIn) as [before [after Hl]].
  exists before, after, (Path.abspath (getcwd w) "rf_config.json").
  split; [exact Hl |]. split.
  - eapply parameters_for_rf_config, forwarded_parameters, HIn.
  - apply abspath_isabs.
Qed.

Lemma training_run_reads_written_file_witness :
  exists before after file,
    log (go (sample_config "train_random_forest") (quiet_world "/w"))
    = (before
       ++ JsonDump file
            (ModelingCfg.random_forest
               (modeling (sample_config "train_random_forest")))
          :: MlflowRun TrainRandomForest
               "/home/user/project/src/train_random_forest" "main" None
               [("trainval_artifact",
                 SStr "nyc_airbnb/trainval_data.csv:latest");
                ("val_size", SFloat "0.2"); ("random_seed", SInt 42);
                ("stratify_by", SStr "neighbourhood_group");
                ("rf_config", SStr "/w/rf_config.json");
                ("max_tfidf_features", SInt 5);
                ("output_artifact", SStr "random_forest_export")]
          :: after)%list
    /\ get "rf_config"
         [("trainval_artifact", SStr "nyc_airbnb/trainval_data.csv:latest");
          ("val_size", SFloat "0.2"); ("random_seed", SInt 42);
          ("stratify_by", SStr "neighbourhood_group");
          ("rf_config", SStr "/w/rf_config.json");
          ("max_tfidf_features", SInt 5);
          ("output_artifact", SStr "random_forest_export")]
       = Some (SStr file)
    /\ (Path.isabs (getcwd (quiet_world "/w")) = true ->
        Path.isabs file = true).
Proof.
  apply (training_run_reads_written_file
           (sample_config "train_random_forest") (quiet_world "/w")).
  find_event.
Defined.

(** X4.  When the run of a stage before the training stage raises, no
    file has been written; when the training run itself raises,
    rf_config.json has been written and is left behind. *)
Theorem file_after_failed_run (config : DictConfig) (w : world) (st : stage)
    (uri entry_point : string) (version : option string) (ps : dict)
    (e : exn) :
  In (MlflowRun st uri entry_point version ps) (log (go config w)) ->
  run_raises w uri entry_point version ps = Some e ->
  (stage_index st < stage_index TrainRandomForest ->
   files_written (log (go config w)) = [])
  /\ (st = TrainRandomForest ->
      files_written (log (go config w))
      = [(Path.abspath (getcwd w) "rf_config.json",
          ModelingCfg.random_forest (modeling config))]).
Proof.
  intros HIn Hr.
  destruct (raising_run_is_last config w st uri entry_point version ps e
              HIn Hr) as [_ [before Hl]].
  pose proof (invoked_sorted config w) as Hs.
  pose proof (written_files_shape config w) as Hshape.
  rewrite Hl in Hs. rewrite invoked_stages_app in Hs. cbn in Hs.
  assert (Hinv : invoked_stages (log (go config w))
                 = (invoked_stages before ++ [st])%list)
    by (rewrite Hl, invoked_stages_app; reflexivity).
  split.
  - intros Hlt. destruct Hshape as [[E _] | [_ Hi]]; [exact E |].
    exfalso. rewrite Hinv in Hi. apply in_app_or in Hi.
    destruct Hi as [Hi | [Heq | []]].
    + apply sorted_last in Hs. rewrite Forall_forall in Hs.
      specialize (Hs _ Hi). unfold stage_lt in Hs. lia.
    + subst st. lia.
  - intros ->. destruct Hshape as [[_ Hn] | [E _]]; [| exact E].
    exfalso. apply Hn. rewrite Hinv. apply in_or_app. right. now left.
Qed.

Lemma file_after_failed_run_witness :
  files_written
    (log (go (sample_config "all")
            (failing_world ["/home/user/project/src/train_random_forest"])))
  = [(Path.abspath
        (getcwd
           (failing_world ["/home/user/project/src/train_random_forest"]))
        "rf_config.json",
      ModelingCfg.random_forest (modeling (sample_config "all")))].
Proof.
  apply (file_after_failed_run (sample_config "all")
           (failing_world ["/home/user/project/src/train_random_forest"])
           TrainRandomForest
           "/home/user/project/src/train_random_forest" "main" None
           [("trainval_artifact", SStr "nyc_airbnb/trainval_data.csv:latest");
            ("val_size", SFloat "0.2"); ("random_seed", SInt 42);
            ("stratify_by", SStr "neighbourhood_group");
            ("rf_config",
             SStr "/home/user/project/outputs/rf_config.json");
            ("max_tfidf_features", SInt 5);
            ("output_artifact", SStr "random_forest_export")]
           (MlflowException "Run failed")).
  - find_event.
  - reflexivity.
  - reflexivity.
Defined.

(** ** How [go] is left *)

(** X5.  The exceptions [go] can be left with are those of its calls: a
    ValueError of one of the two assignments, for a name with a null
    byte, before any stage is started; an exception of opening or
    writing rf_config.json in the block of the training stage, whose run
    is then not started; or the exception of an external run that was
    started.  When [go] returns, no started run raised, the two names
    hold no null byte and every active stage was invoked. *)
Theorem exceptions_of_go (config : DictConfig) (w : world) :
  (forall e,
      outcome (go config w) = Raised e ->
      (e = ValueError "embedded null byte"
       /\ (has_nul (MainCfg.project_name (main config)) = true
           \/ has_nul (MainCfg.experiment_name (main config)) = true)
       /\ invoked_stages (log (go config w)) = [])
      \/ (In "train_random_forest"
            (active_steps_of (MainCfg.steps (main config)))
          /\ (open_raises w (Path.abspath (getcwd w) "rf_config.json")
              = Some e
              \/ dump_raises w (Path.abspath (getcwd w) "rf_config.json")
                   (ModelingCfg.random_forest (modeling config))
                 = Some e)
          /\ ~ In TrainRandomForest (invoked_stages (log (go config w))))
      \/ (exists st uri entry_point version ps,
             In (MlflowRun st uri entry_point version ps)
                (log (go config w))
             /\ run_raises w uri entry_point version ps = Some e))
  /\ (outcome (go config w) = Returned tt ->
      invoked_stages (log (go config w))
      = filter (is_active config) program_order
      /\ (forall st uri entry_point version ps,
             In (MlflowRun st uri entry_point version ps)
                (log (go config w)) ->
             run_raises w uri entry_point version ps = None)
      /\ has_nul (MainCfg.project_name (main config)) = false
      /\ has_nul (MainCfg.experiment_name (main config)) = false).
Proof.
  destruct (go_facts config w) as [_ [H _]].
  destruct (outcome (go config w)) as [[] | e0]; split.
  - intros e He. discriminate He.
  - intros _. destruct H as [Hi [Hf [N1 N2]]]. split; [exact Hi |].
    split; [| split; assumption].
    intros st uri ep ver ps HIn. rewrite Forall_forall in Hf.
    apply (Hf _ HIn).
  - intros e [= <-]. destruct H as [H | [[Ha H] | H]].
    + left. exact H.
    + right. left. split; [| exact H].
      change "train_random_forest" with (stage_name TrainRandomForest).
      now apply is_active_In.
    + right. right. exact H.
  - intros He. discriminate He.
Qed.

Lemma exceptions_of_go_witness :
  (OSError "Read-only file system" = ValueError "embedded null byte"
   /\ (has_nul (MainCfg.project_name (main (sample_config "all"))) = true
       \/ has_nul (MainCfg.experiment_name (main (sample_config "all")))
          = true)
   /\ invoked_stages
        (log (go (sample_config "all") (read_only_world "/w"))) = [])
  \/ (In "train_random_forest"
        (active_steps_of (MainCfg.steps (main (sample_config "all"))))
      /\ (open_raises (read_only_world "/w")
            (Path.abspath (getcwd (read_only_world "/w")) "rf_config.json")
          = Some (OSError "Read-only file system")
          \/ dump_raises (read_only_world "/w")
               (Path.abspath (getcwd (read_only_world "/w"))
                  "rf_config.json")
               (ModelingCfg.random_forest (modeling (sample_config "all")))
             = Some (OSError "Read-only file system"))
      /\ ~ In TrainRandomForest
             (invoked_stages
                (log (go (sample_config "all") (read_only_world "/w")))))
  \/ (exists st uri entry_point version ps,
         In (MlflowRun st uri entry_point version ps)
            (log (go (sample_config "all") (read_only_world "/w")))
         /\ run_raises (read_only_world "/w") uri entry_point version ps
            = Some (OSError "Read-only file system")).
Proof.
  apply (exceptions_of_go (sample_config "all") (read_only_world "/w")).
  reflexivity.
Defined.

(** ** What ran before a failure *)

Lemma sorted_app_lt (a b : list stage) :
  StronglySorted stage_lt (a ++ b) ->
  forall x y, In x a -> In y b -> stage_lt x y.
Proof.
  induction a as [| c a IH]; cbn; intros Hs x y Hx Hy; [contradiction |].
  inversion Hs as [| ? ? Hs' Hc]; subst.
  destruct Hx as [<- | Hx].
  - rewrite Forall_forall in Hc. apply Hc, in_or_app. now right.
  - now apply IH.
Qed.

Lemma filter_keeps_all {A} (f : A -> bool) (l : list A) :
  (forall x, In x l -> f x = true) -> filter f l = l.
Proof.
  induction l as [| a l IH]; cbn; intros H; [reflexivity |].
  rewrite (H a) by now left. f_equal. apply IH. intros x Hx. apply H. now right.
Qed.

Lemma filter_drops_all {A} (f : A -> bool) (l : list A) :
  (forall x, In x l -> f x = false) -> filter f l = [].
Proof.
  induction l as [| a l IH]; cbn; intros H; [reflexivity |].
  rewrite (H a) by now left. apply IH. intros x Hx. apply H. now right.
Qed.

Lemma filter_both {A} (f g : A -> bool) (l : list A) :
  filter (fun x => f x && g x) l = filter g (filter f l).
Proof.
  induction l as [| a l IH]; cbn; [reflexivity |].
  destruct (f a); cbn; [destruct (g a) |]; now rewrite IH.
Qed.

(** X6.  When the run of a stage raises, the stages started in that
    execution are exactly the active stages up to and including the
    failing one: no active stage before it was skipped. *)
Theorem stages_started_before_failure (config : DictConfig) (w : world)
    (st : stage) (uri entry_point : string) (version : option string)
    (ps : dict) (e : exn) :
  In (MlflowRun st uri entry_point version ps) (log (go config w)) ->
  run_raises w uri entry_point version ps = Some e ->
  invoked_stages (log (go config w))
  = filter (fun s => is_active config s
                     && (stage_index s <=? stage_index st)%nat)
      program_order.
Proof.
  intros HIn Hr.
  destruct (raising_run_is_last config w st uri entry_point version ps e
              HIn Hr) as [_ [before Hl]].
  destruct (go_any_world config w) as [[k Hk] _].
  assert (Hinv : invoked_stages (log (go config w))
                 = (invoked_stages before ++ [st])%list)
    by (rewrite Hl, invoked_stages_app; reflexivity).
  pose proof (invoked_sorted config w) as Hs. rewrite Hinv in Hs.
  set (F := filter (is_active config) program_order) in *.
  assert (HF : StronglySorted stage_lt F)
    by apply sorted_filter, program_order_sorted.
  rewrite filter_both. fold F.
  transitivity
    (filter (fun s => (stage_index s <=? stage_index st)%nat)
       (firstn k F ++ skipn k F));
    [| now rewrite firstn_skipn].
  rewrite <- (firstn_skipn k F) in HF.
  rewrite filter_app, filter_keeps_all, filter_drops_all.
  - rewrite app_nil_r. exact Hk.
  - intros x Hx. apply Nat.leb_gt.
    apply (sorted_app_lt _ _ HF st x); [| exact Hx].
    rewrite <- Hk, Hinv. apply in_or_app. right. now left.
  - intros x Hx. apply Nat.leb_le. rewrite <- Hk, Hinv in Hx.
    apply in_app_or in Hx. destruct Hx as [Hx | [<- | []]]; [| lia].
    apply sorted_last in Hs. rewrite Forall_forall in Hs.
    specialize (Hs _ Hx). unfold stage_lt in Hs. lia.
Qed.

Lemma stages_started_before_failure_witness :
  invoked_stages
    (log (go (sample_config "all")
            (failing_world ["/home/user/project/src/data_check"])))
  = filter (fun s => is_active (sample_config "all") s
                     && (stage_index s <=? stage_index DataCheck)%nat)
      program_order.
Proof.
  apply (stages_started_before_failure (sample_config "all")
           (failing_world ["/home/user/project/src/data_check"])
           DataCheck "/home/user/project/src/data_check" "main" None
           [("csv", SStr "nyc_airbnb/clean_sample.csv:latest");
            ("ref", SStr "nyc_airbnb/clean_sample.csv:reference");
            ("kl_threshold", SFloat "0.2");
            ("min_price", SInt 10);
            ("max_price", SInt 350)]
           (MlflowException "Run failed")).
  - find_event.
  - reflexivity.
Defined.

(** ** The test stage *)

(** X7.  The stage test_regression_model is never run by mistake: in
    every execution in which it is started, [main.steps] is not "all" and
    names test_regression_model among its comma-separated pieces. *)
Theorem test_stage_only_when_named (config : DictConfig) (w : world) :
  In TestRegressionModel (invoked_stages (log (go config w))) ->
  MainCfg.steps (main config) <> "all"
  /\ In "test_regression_model"
       (Py.split "," (MainCfg.steps (main config))).
Proof.
  intros H. apply invoked_is_active in H. unfold is_active in H.
  cbn [stage_name] in H.
  destruct (String.eqb_spec (MainCfg.steps (main config)) "all") as [E | E].
  - rewrite E in H. discriminate H.
  - split; [exact E |]. rewrite active_steps_of_not_all in H by exact E.
    now apply contains_In.
Qed.

Lemma test_stage_only_when_named_witness :
  MainCfg.steps (main (sample_config "test_regression_model")) <> "all"
  /\ In "test_regression_model"
       (Py.split ","
          (MainCfg.steps (main (sample_config "test_regression_model")))).
Proof.
  apply (test_stage_only_when_named (sample_config "test_regression_model")
           (quiet_world "/w")).
  cbn. now left.
Defined.

(** ** What one stage hands to the next *)

(** X8.  The artifact names line up between stages, also across
    executions that differ in [main.steps] and in their world: the name
    basic_cleaning is told to write (output_artifact) is the one
    data_check reads as csv and as ref (under the latest and the
    reference tag) and data_split reads as input (latest tag); the name
    train_random_forest is told to export (output_artifact) is the one
    test_regression_model loads as mlflow_model under the prod tag. *)
Theorem artifacts_line_up (config : DictConfig) (w : world) (st : stage)
    (uri entry_point : string) (version : option string) (ps : dict) :
  In (MlflowRun st uri entry_point version ps) (log (go config w)) ->
  forall s' w' st' uri' entry_point' version' ps',
    In (MlflowRun st' uri' entry_point' version' ps')
       (log (go (with_steps config s') w')) ->
    let project := MainCfg.project_name (main config) in
    let latest := MainCfg.latest_tag (main config) in
    (st = BasicCleaning ->
     exists a,
       get "output_artifact" ps = Some (SStr a)
       /\ (st' = DataCheck ->
           get "csv" ps' = Some (SStr (project ++ "/" ++ a ++ ":" ++ latest))
           /\ get "ref" ps'
              = Some (SStr (project ++ "/" ++ a ++ ":"
                            ++ MainCfg.reference_tag (main config))))
       /\ (st' = DataSplit ->
           get "input" ps'
           = Some (SStr (project ++ "/" ++ a ++ ":" ++ latest))))
    /\ (st = TrainRandomForest ->
        exists a,
          get "output_artifact" ps = Some (SStr a)
          /\ (st' = TestRegressionModel ->
              get "mlflow_model" ps'
              = Some (SStr (project ++ "/" ++ a ++ ":"
                            ++ MainCfg.prod_tag (main config))))).
Proof.
  intros HIn s' w' st' uri' ep' ver' ps' HIn'.
  apply forwarded_parameters in HIn. apply forwarded_parameters in HIn'.
  rewrite parameters_for_with_steps in HIn'.
  revert HIn HIn'. dry_cases config. intros HIn HIn'.
  split.
  - intros ->. cbn in HIn. injection HIn as <-.
    eexists. split; [reflexivity |].
    split; intros ->; cbn in HIn'; injection HIn' as <-; [split |];
      reflexivity.
  - intros ->. cbn in HIn. injection HIn as <-.
    eexists. split; [reflexivity |].
    intros ->. cbn in HIn'. injection HIn' as <-. reflexivity.
Qed.

Lemma artifacts_line_up_witness :
  get "input"
    [("input", SStr "nyc_airbnb/clean_sample.csv:latest");
     ("test_size", SFloat "0.2"); ("random_seed", SInt 42);
     ("stratify_by", SStr "neighbourhood_group")]
  = Some (SStr "nyc_airbnb/clean_sample.csv:latest").
Proof.
  destruct (artifacts_line_up (sample_config "basic_cleaning")
              (quiet_world "/w") BasicCleaning
              "/home/user/project/src/basic_cleaning" "main" None
              [("input_artifact", SStr "nyc_airbnb/sample.csv:latest");
               ("output_artifact", SStr "clean_sample.csv");
               ("output_type", SStr "clean_sample");
               ("output_description",
                SStr "Data with outliers removed and date converted");
               ("min_price", SInt 10); ("max_price", SInt 350)]
              ltac:(find_event)
              "data_split" (quiet_world "/elsewhere") DataSplit
              "https://example.org/components/train_val_test_split"
              "main" None
              [("input", SStr "nyc_airbnb/clean_sample.csv:latest");
               ("test_size", SFloat "0.2"); ("random_seed", SInt 42);
               ("stratify_by", SStr "neighbourhood_group")]
              ltac:(find_event))
    as [H _].
  destruct (H eq_refl) as [a [Ha [_ Hsplit]]].
  injection Ha as <-. exact (Hsplit eq_refl).
Defined.

(** X9.  Stages that share a setting receive the same value: data_check
    gets the min_price and max_price that basic_cleaning gets, and
    train_random_forest gets the random_seed and stratify_by that
    data_split gets, also across executions that differ in [main.steps]
    and in their world. *)
Theorem shared_settings_agree (config : DictConfig) (w : world)
    (uri entry_point : string) (version : option string) (ps : dict)
    (st : stage) :
  In (MlflowRun st uri entry_point version ps) (log (go config w)) ->
  forall s' w' st' uri' entry_point' version' ps',
    In (MlflowRun st' uri' entry_point' version' ps')
       (log (go (with_steps config s') w')) ->
    (st = BasicCleaning -> st' = DataCheck ->
     get "min_price" ps' = get "min_price" ps
     /\ get "max_price" ps' = get "max_price" ps
     /\ get "min_price" ps = Some (EtlCfg.min_price (etl config))
     /\ get "max_price" ps = Some (EtlCfg.max_price (etl config)))
    /\ (st = DataSplit -> st' = TrainRandomForest ->
        get "random_seed" ps' = get "random_seed" ps
        /\ get "stratify_by" ps' = get "stratify_by" ps
        /\ get "random_seed" ps
           = Some (ModelingCfg.random_seed (modeling config))
        /\ get "stratify_by" ps
           = Some (ModelingCfg.stratify_by (modeling config))).
Proof.
  intros HIn s' w' st' uri' ep' ver' ps' HIn'.
  apply forwarded_parameters in HIn. apply forwarded_parameters in HIn'.
  rewrite parameters_for_with_steps in HIn'.
  revert HIn HIn'. dry_cases config. intros HIn HIn'.
  split; intros -> ->; cbn in HIn, HIn';
    injection HIn as <-; injection HIn' as <-;
    repeat split; reflexivity.
Qed.

Lemma shared_settings_agree_witness :
  get "random_seed"
    [("trainval_artifact", SStr "nyc_airbnb/trainval_data.csv:latest");
     ("val_size", SFloat "0.2"); ("random_seed", SInt 42);
     ("stratify_by", SStr "neighbourhood_group");
     ("rf_config", SStr "/w/rf_config.json");
     ("max_tfidf_features", SInt 5);
     ("output_artifact", SStr "random_forest_export")]
  = get "random_seed"
      [("input", SStr "nyc_airbnb/clean_sample.csv:latest");
       ("test_size", SFloat "0.2"); ("random_seed", SInt 42);
       ("stratify_by", SStr "neighbourhood_group")].
Proof.
  destruct (shared_settings_agree (sample_config "all") (quiet_world "/w")
           "https://example.org/components/train_val_test_split"
           "main" None
           [("input", SStr "nyc_airbnb/clean_sample.csv:latest");
            ("test_size", SFloat "0.2"); ("random_seed", SInt 42);
            ("stratify_by", SStr "neighbourhood_group")]
           DataSplit
           ltac:(find_event)
           "train_random_forest" (quiet_world "/w") TrainRandomForest
           "/home/user/project/src/train_random_forest" "main" None
           [("trainval_artifact", SStr "nyc_airbnb/trainval_data.csv:latest");
            ("val_size", SFloat "0.2"); ("random_seed", SInt 42);
            ("stratify_by", SStr "neighbourhood_group");
            ("rf_config", SStr "/w/rf_config.json");
            ("max_tfidf_features", SInt 5);
            ("output_artifact", SStr "random_forest_export")]
           ltac:(find_event))
    as [_ H].
  apply (H eq_refl eq_refl).
Defined.

(** ** Splitting and joining the list of steps *)

Lemma split_without_separator (sep : ascii) (x : string) :
  occurrences sep x = 0 -> Py.split sep x = [x].
Proof.
  induction x as [| c x IH]; cbn; [reflexivity |].
  destruct (Ascii.eqb c sep); [discriminate |].
  intros H. now rewrite IH.
Qed.

Lemma join_cons (sep : ascii) (x y : string) (rest : list string) :
  Py.join (String sep "") (x :: y :: rest)
  = x ++ String sep (Py.join (String sep "") (y :: rest)).
Proof. reflexivity. Qed.

Lemma join_of_split (sep : ascii) (s : string) :
  Py.join (String sep "") (Py.split sep s) = s
  /\ length (Py.split sep s) = S (occurrences sep s)
  /\ Forall (fun piece => occurrences sep piece = 0) (Py.split sep s).
Proof.
  induction s as [| c s [IHj [IHl IHf]]].
  - cbn. repeat split. repeat constructor.
  - cbn [Py.split occurrences]. destruct (Ascii.eqb c sep) eqn:E.
    + apply Ascii.eqb_eq in E. subst c. split; [| split].
      * destruct (Py.split sep s) as [| p ps] eqn:Es;
          [cbn in IHl; discriminate |].
        rewrite join_cons, IHj. reflexivity.
      * cbn [length]. now rewrite IHl.
      * constructor; [reflexivity | exact IHf].
    + destruct (Py.split sep s) as [| p ps] eqn:Es;
        [cbn in IHl; discriminate |].
      split; [| split].
      * destruct ps as [| q ps].
        -- cbn in IHj |- *. now rewrite IHj.
        -- rewrite join_cons in IHj |- *. cbn [append].
           now rewrite IHj.
      * cbn [length] in IHl |- *. exact IHl.
      * inversion IHf as [| ? ? Hp Hps]; subst.
        constructor; [| exact Hps]. cbn [occurrences]. now rewrite E, Hp.
Qed.

Lemma split_of_join (sep : ascii) (names : list string) :
  names <> [] ->
  Forall (fun name => occurrences sep name = 0) names ->
  Py.split sep (Py.join (String sep "") names) = names.
Proof.
  induction names as [| x names IH]; [contradiction |].
  intros _ Hf. inversion Hf as [| ? ? Hx Hn]; subst.
  destruct names as [| y names].
  - cbn [Py.join]. now apply split_without_separator.
  - rewrite join_cons, split_app, split_without_separator by exact Hx.
    rewrite IH by (discriminate || exact Hn). reflexivity.
Qed.

(** X10.  Splitting at a character and joining with it are inverse to each
    other: joining the pieces of a string gives the string back, the
    pieces are one more than the separators in the string and contain no
    separator; and a non-empty list of separator-free names, once joined,
    splits into the same names. *)
Theorem split_join_round_trip (sep : ascii) :
  (forall s,
      Py.join (String sep "") (Py.split sep s) = s
      /\ length (Py.split sep s) = S (occurrences sep s)
      /\ Forall (fun piece => occurrences sep piece = 0) (Py.split sep s))
  /\ (forall names,
         names <> [] ->
         Forall (fun name => occurrences sep name = 0) names ->
         Py.split sep (Py.join (String sep "") names) = names).
Proof.
  split; [apply join_of_split | apply split_of_join].
Qed.

Lemma split_join_round_trip_witness :
  Py.split ","
    (Py.join "," ["download"; "data_check"; "train_random_forest"])
  = ["download"; "data_check"; "train_random_forest"].
Proof.
  apply (split_join_round_trip ",").
  - discriminate.
  - repeat constructor.
Defined.


